(** * Diagnostic reporters of langium-sql: [sql-error-codes.ts]

    The file embeds [SqlErrorFactory.create] and the thirteen reporters of
    [ReportAs] together with the fragment of JavaScript they run on:
    dynamically typed values, a store of objects with identity, property
    reads that fail on [undefined] and [null], template literals,
    [Array.prototype.map] and [Array.prototype.join], and the conversion of
    numbers to strings. *)

From Stdlib Require Import ZArith QArith Qround Qabs String List DecimalString.
From Stdlib Require Import Floats.SpecFloat.
From stdpp Require Import gmap strings list fin_maps.

Set Warnings "-register-all".

(** ** Numbers

    A JavaScript number is an IEEE 754 binary64 value.  [toString] follows
    ECMA-262, Number::toString(x, 10): the shortest decimal that rounds back
    to [x], the closest one when several have that length. *)

Module JSNumber.

Definition number := spec_float.
Definition prec : Z := 53.
Definition emax : Z := 1024.

Definition isNumber (x : number) : bool := valid_binary prec emax x.

Definition ofZ (z : Z) : number := binary_normalize prec emax z 0 false.
Definition div (x y : number) : number := SFdiv prec emax x y.

Definition NaN : number := S754_nan.
Definition Infinity : number := S754_infinity false.
Definition MAX_SAFE_INTEGER : number := ofZ (2 ^ 53 - 1).
Definition MAX_VALUE : number := S754_finite false (2 ^ 53 - 1) 971.

Definition Qpow (b : Z) (n : Z) : Q := Qpower (inject_Z b) n.

(** The real number a positive finite double [m * 2^e] stands for. *)
Definition realOf (m : positive) (e : Z) : Q := (inject_Z (Zpos m) * Qpow 2 e)%Q.

(** The reals that round to [m * 2^e] lie between the midpoints towards its
    two neighbours; the lower neighbour is half as far at a binade boundary. *)
Definition roundingInterval (m : positive) (e : Z) : Q * Q :=
  let x := realOf m e in
  let ulp := Qpow 2 e in
  let below :=
    if Pos.eqb m (2 ^ 52) && Z.ltb (-1074) e then (ulp / 4)%Q else (ulp / 2)%Q in
  ((x - below)%Q, (x + ulp / 2)%Q).

Definition Qlt_bool (a b : Q) : bool := negb (Qle_bool b a).

(** Round to nearest, ties to even: the midpoints belong to the interval
    exactly when the mantissa is even. *)
Definition roundsTo (m : positive) (e : Z) (v : Q) : bool :=
  let '(lo, hi) := roundingInterval m e in
  if Z.even (Zpos m) then Qle_bool lo v && Qle_bool v hi
  else Qlt_bool lo v && Qlt_bool v hi.

Definition decimalValue (s n k : Z) : Q := (inject_Z s * Qpow 10 (n - k))%Q.

(** The pairs [(s, n)] with [10^(k-1) <= s < 10^k] and [s * 10^(n-k)]
    rounding to the double; [n] ranges over a window around the decimal
    exponent estimated from the binary one. *)
Definition candidates (m : positive) (e : Z) (k : Z) : list (Z * Z) :=
  let x := realOf m e in
  let est := (((Z.log2 (Zpos m) + e) * 30103) / 100000)%Z in
  n ← seqZ (est - 3)%Z 9%Z;
  s ← (let q := Qfloor (x / Qpow 10 (n - k))%Q in [q; (q + 1)%Z]);
  if (10 ^ (k - 1) <=? s)%Z && (s <? 10 ^ k)%Z && roundsTo m e (decimalValue s n k)
  then [(s, n)] else [].

Definition closer (x : Q) (k : Z) (c1 c2 : Z * Z) : Z * Z :=
  let d1 := Qabs (decimalValue c1.1 c1.2 k - x)%Q in
  let d2 := Qabs (decimalValue c2.1 c2.2 k - x)%Q in
  if Qlt_bool d1 d2 then c1
  else if Qlt_bool d2 d1 then c2
  else if Z.even c1.1 then c1 else c2.

Definition best (x : Q) (k : Z) (cs : list (Z * Z)) : option (Z * Z) :=
  match cs with
  | [] => None
  | c :: cs' => Some (fold_left (closer x k) cs' c)
  end.

(** Smallest [k] first; seventeen digits identify every binary64 value. *)
Fixpoint shortest (m : positive) (e : Z) (k : Z) (tries : nat) : option (Z * Z * Z) :=
  match tries with
  | O => None
  | S tries' =>
      match best (realOf m e) k (candidates m e k) with
      | Some (s, n) => Some (n, k, s)
      | None => shortest m e (k + 1)%Z tries'
      end
  end.

Definition digits (z : Z) : string := NilZero.string_of_uint (N.to_uint (Z.to_N z)).

Fixpoint zeros (n : nat) : string :=
  match n with
  | O => ""
  | S n' => "0" +:+ zeros n'
  end.

Definition exponentPart (n : Z) : string :=
  "e" +:+ (if (0 <=? n - 1)%Z then "+" else "-") +:+ digits (Z.abs (n - 1)).

(** Steps 7 to 11 of Number::toString. *)
Definition formatDecimal (n k s : Z) : string :=
  let ds := digits s in
  if (k <=? n)%Z && (n <=? 21)%Z then
    ds +:+ zeros (Z.to_nat (n - k))
  else if (0 <? n)%Z && (n <=? 21)%Z then
    substring 0 (Z.to_nat n) ds +:+ "." +:+ substring (Z.to_nat n) (Z.to_nat (k - n)) ds
  else if (-6 <? n)%Z && (n <=? 0)%Z then
    "0." +:+ zeros (Z.to_nat (- n)) +:+ ds
  else if (k =? 1)%Z then
    ds +:+ exponentPart n
  else
    substring 0 1 ds +:+ "." +:+ substring 1 (Z.to_nat (k - 1)) ds +:+ exponentPart n.

(** The last branch is for mantissas that are no binary64 mantissa. *)
Definition toStringPositive (m : positive) (e : Z) : string :=
  match shortest m e 1 17 with
  | Some (n, k, s) => formatDecimal n k s
  | None => digits (Zpos m) +:+ "p" +:+ (if (e <? 0)%Z then "-" else "+") +:+ digits (Z.abs e)
  end.

Definition toString (x : number) : string :=
  match x with
  | S754_nan => "NaN"
  | S754_zero _ => "0"
  | S754_infinity false => "Infinity"
  | S754_infinity true => "-Infinity"
  | S754_finite false m e => toStringPositive m e
  | S754_finite true m e => "-" +:+ toStringPositive m e
  end.

End JSNumber.

Abbreviation number := JSNumber.number.

(** ** Values, objects and the store *)

Definition loc := positive.

Inductive value : Type :=
  | VUndefined
  | VNull
  | VBoolean (b : bool)
  | VNumber (x : number)
  | VBigInt (z : Z)
  | VString (s : string)
  | VSymbol (description : string)
  | VObject (l : loc).

(** An object is its named data properties; an array also has its
    elements.  [extensible] is off after [Object.preventExtensions],
    [Object.seal] or [Object.freeze]; [readonly] holds the names of the
    properties that are not writable, all of them after [Object.freeze].
    Accessor properties and proxies are not modelled. *)
Record object : Type := mkObject {
  fields : gmap string value;
  elems : option (list value);
  extensible : bool;
  readonly : gset string
}.

(** What an object literal and an array literal build. *)
Definition record (fs : gmap string value) : object := mkObject fs None true ∅.
Definition array (vs : list value) : object := mkObject ∅ (Some vs) true ∅.

(** [Object.freeze] of an object literal. *)
Definition frozenRecord (fs : gmap string value) : object := mkObject fs None false (dom fs).

(** Whether an assignment to [o.f] goes through: an own property must be
    writable, a new one needs an extensible object. *)
Definition canWrite (o : object) (f : string) : bool :=
  match fields o !! f with
  | Some _ => bool_decide (f ∉ readonly o)
  | None => extensible o
  end.

Abbreviation heap := (gmap loc object).

(** ** Computations that read and write a state and may throw *)

Inductive exception : Type :=
  | TypeError (what : string)
  | Thrown (payload : value).

Inductive outcome (A : Type) : Type :=
  | Ok (a : A)
  | Throw (e : exception).
Arguments Ok {A} a.
Arguments Throw {A} e.

Definition Eff (S A : Type) : Type := S → outcome A * S.

#[global] Instance Eff_ret {S} : MRet (Eff S) := λ A a s, (Ok a, s).
#[global] Instance Eff_bind {S} : MBind (Eff S) := λ A B f m s,
  match m s with
  | (Ok a, s') => f a s'
  | (Throw e, s') => (Throw e, s')
  end.

Definition throw {S A} (e : exception) : Eff S A := λ s, (Throw e, s).

Abbreviation JS := (Eff heap).

(** ** The JavaScript operations the reporters use *)

(** [v.f] and the destructuring of [f] out of [v].  None of the property
    names read in this file is a property of a primitive or of
    [Array.prototype], so those reads give [undefined]. *)
Definition getProp (v : value) (f : string) : JS value :=
  match v with
  | VUndefined | VNull =>
      throw (TypeError ("Cannot read properties of undefined or null (reading '" +:+ f +:+ "')"))
  | VObject l => λ h, (Ok (default VUndefined (h !! l ≫= λ o, fields o !! f)), h)
  | _ => mret VUndefined
  end.

(** [v.f = x] in strict mode: a [TypeError] on a primitive, on a property
    that is not writable and on a new property of an object that is not
    extensible. *)
Definition setProp (v : value) (f : string) (x : value) : JS unit :=
  match v with
  | VObject l => λ h,
      let o := default (record ∅) (h !! l) in
      if canWrite o f
      then (Ok (), <[l := mkObject (<[f := x]> (fields o)) (elems o)
                                   (extensible o) (readonly o)]> h)
      else (Throw (TypeError ("Cannot assign to read only property '" +:+ f +:+ "'")), h)
  | _ => throw (TypeError ("Cannot set property '" +:+ f +:+ "'"))
  end.

(** The decimal digits of a BigInt. *)
Definition bigIntText (z : Z) : string :=
  if (z <? 0)%Z then "-" +:+ JSNumber.digits (- z) else JSNumber.digits z.

(** An object or array literal: a new object at an unused location. *)
Definition alloc (o : object) : JS value := λ h,
  let l := fresh (dom h) in (Ok (VObject l), <[l := o]> h).

(** What the conversion of an object to a string does is decided by the
    object's own [toString], [valueOf] or [Symbol.toPrimitive], which is not
    code of this file. *)
Class Host := { ObjectToString : loc → JS string }.

Section Operations.
Context `{Host}.

(** ECMA-262 ToString, as applied to a template literal's substitutions:
    a symbol is refused. *)
Definition ToString (v : value) : JS string :=
  match v with
  | VUndefined => mret "undefined"
  | VNull => mret "null"
  | VBoolean b => mret (if b then "true" else "false")
  | VNumber x => mret (JSNumber.toString x)
  | VBigInt z => mret (bigIntText z)
  | VString s => mret s
  | VSymbol _ => throw (TypeError "Cannot convert a Symbol value to a string")
  | VObject l => ObjectToString l
  end.

(** The elements of [v] when [v] is an array, for a call [v.method(...)]. *)
Definition arrayElems (v : value) (method : string) : JS (list value) :=
  match v with
  | VUndefined | VNull =>
      throw (TypeError ("Cannot read properties of undefined or null (reading '" +:+ method +:+ "')"))
  | VObject l => λ h,
      match h !! l ≫= elems with
      | Some vs => (Ok vs, h)
      | None => (Throw (TypeError (method +:+ " is not a function")), h)
      end
  | _ => throw (TypeError (method +:+ " is not a function"))
  end.

Fixpoint mapElems (f : value → JS value) (vs : list value) : JS (list value) :=
  match vs with
  | [] => mret []
  | v :: vs' => x ← f v; xs ← mapElems f vs'; mret (x :: xs)
  end.

(** [v.map(f)]: a new array of the results. *)
Definition Array_map (v : value) (f : value → JS value) : JS value :=
  vs ← arrayElems v "map";
  xs ← mapElems f vs;
  alloc (array xs).

(** An element of a joined array: [undefined] and [null] give the empty
    string. *)
Definition joinElem (v : value) : JS string :=
  match v with
  | VUndefined | VNull => mret ""
  | _ => ToString v
  end.

Fixpoint joinElems (sep : string) (vs : list value) : JS string :=
  match vs with
  | [] => mret ""
  | [v] => joinElem v
  | v :: vs' => s ← joinElem v; r ← joinElems sep vs'; mret (s +:+ sep +:+ r)
  end.

(** [v.join(sep)]. *)
Definition Array_join (v : value) (sep : string) : JS string :=
  vs ← arrayElems v "join";
  joinElems sep vs.

End Operations.

(** ** Declared parameter types

    The TypeScript types the reporters are declared at, and the reading of
    a store at such a type.  As under [strictNullChecks], [undefined] and
    [null] belong to none of them; an object may carry more properties than
    its type names; a primitive has none of the properties named in this
    file, so it belongs to the empty object type only. *)

Inductive ty : Type :=
  | TString
  | TNumber
  | TRecord (fs : list (string * ty))
  | TArray (t : ty).

Inductive data : Type :=
  | DString (s : string)
  | DNumber (x : number)
  | DRecord (ds : list (string * data))
  | DArray (ds : list data).

Fixpoint decode (h : heap) (t : ty) (v : value) {struct t} : option data :=
  match t with
  | TString =>
      match v with
      | VString s => Some (DString s)
      | _ => None
      end
  | TNumber =>
      match v with
      | VNumber x => if JSNumber.isNumber x then Some (DNumber x) else None
      | _ => None
      end
  | TRecord fs =>
      match v with
      | VUndefined | VNull => None
      | VObject l =>
          o ← h !! l;
          DRecord <$> mapM (λ ft, x ← fields o !! ft.1;
                                  d ← decode h ft.2 x;
                                  Some (ft.1, d)) fs
      | _ => match fs with [] => Some (DRecord []) | _ => None end
      end
  | TArray t' =>
      match v with
      | VObject l =>
          vs ← h !! l ≫= elems;
          DArray <$> mapM (decode h t') vs
      | _ => None
      end
  end.

(** The textual forms of the primitive values of a parameter record. *)
Fixpoint texts (d : data) : list string :=
  match d with
  | DString s => [s]
  | DNumber x => [JSNumber.toString x]
  | DRecord ds => concat ((λ fd, texts fd.2) <$> ds)
  | DArray ds => concat (texts <$> ds)
  end.

Definition Nameable : ty := TRecord [("name", TString)].
Definition NumericValue : ty := TRecord [("value", TNumber)].

(** Modelled from the spec: [sql-type-descriptors.ts] is not among the
    sources; a type descriptor is a value "exposing at least a discriminator
    label", which is all the reporters read of it. *)
Definition TypeDescriptor : ty := TRecord [("discriminator", TString)].

(** Modelled from the spec: [sql-type-operators.ts] is not among the
    sources; an operator is the string of its symbol. *)
Definition BinaryOperator : ty := TString.
Definition UnaryOperator : ty := TString.

Definition BinaryOperatorMismatch : ty :=
  TRecord [("op", BinaryOperator); ("left", TypeDescriptor); ("right", TypeDescriptor)].
Definition UnaryOperatorMismatch : ty :=
  TRecord [("op", UnaryOperator); ("operand", TypeDescriptor)].

(** Modelled from the spec: [generated/ast.ts] is not among the sources; of
    a data type node the reporter reads the array of name parts and the
    array of argument literals, each with a numeric [value]. *)
Definition NumberLiteral : ty := TRecord [("value", TNumber)].
Definition DataType : ty :=
  TRecord [("dataTypeNames", TArray TString); ("arguments", TArray NumberLiteral)].

(** ** The diagnostic sink

    [accept] is the validator's callback.  It runs on the store, may change
    it and may throw.  Every call made to it is also written to a log the
    callback cannot reach, with the store as it was when the call was
    made. *)

Inductive SqlErrorSeverity : Type :=
  | SevError
  | SevWarning
  | SevInfo
  | SevHint.

Definition severityString (s : SqlErrorSeverity) : string :=
  match s with
  | SevError => "error"
  | SevWarning => "warning"
  | SevInfo => "info"
  | SevHint => "hint"
  end.

Definition ValidationAcceptor : Type := SqlErrorSeverity → string → value → JS unit.

Record sinkCall : Type := mkSinkCall {
  callSeverity : SqlErrorSeverity;
  callMessage : string;
  callInfo : value;
  callHeap : heap
}.

Record world : Type := mkWorld {
  store : heap;
  sinkCalls : list sinkCall
}.

Definition inStore {A} (c : JS A) : Eff world A := λ w,
  let '(r, h) := c (store w) in (r, mkWorld h (sinkCalls w)).

Definition callSink (accept : ValidationAcceptor)
    (severity : SqlErrorSeverity) (message : string) (info : value) : Eff world unit := λ w,
  let '(r, h) := accept severity message info (store w) in
  (r, mkWorld h (sinkCalls w ++ [mkSinkCall severity message info (store w)])).

(** ** [SqlErrorFactory] *)

(** A reporter is a function, [report], with a [Code] property.  The other
    fields are what the function closes over, and [paramType] is the type
    argument [P] it was declared with, which exists at compile time only. *)
Record SqlErrorReporter : Type := mkReporter {
  paramType : ty;
  severity : SqlErrorSeverity;
  messageGenerator : value → JS string;
  diagnosticGenerator : value → JS value;
  report : value → value → ValidationAcceptor → Eff world unit;
  Code : string
}.

Module SqlErrorFactory.

(** The arguments of [accept] are evaluated from left to right: the message
    is rendered before the diagnostic info is built and stamped. *)
Definition create (P : ty) (code : string) (severity : SqlErrorSeverity)
    (messageGenerator : value → JS string)
    (diagnosticGenerator : value → JS value) : SqlErrorReporter :=
  {| paramType := P;
     severity := severity;
     messageGenerator := messageGenerator;
     diagnosticGenerator := diagnosticGenerator;
     report := λ node props accept,
       message ← inStore (messageGenerator props);
       target ← inStore (info ← diagnosticGenerator node;
                         _ ← setProp info "code" (VString code);
                         mret info);
       callSink accept severity message target;
     Code := code |}.

End SqlErrorFactory.

(** ** [ReportAs] *)

Module ReportAs.
Import SqlErrorFactory.

Section Catalog.
Context `{Host}.

Definition DuplicatedVariableName : SqlErrorReporter :=
  create Nameable "SQL00001" SevError
    (λ props,
       name ← getProp props "name";
       name' ← ToString name;
       mret ("Duplicated variable name '" +:+ name' +:+ "'."))
    (λ node, alloc (record {[ "node" := node; "property" := VString "name" ]})).

Definition NumericValueIsNotInteger : SqlErrorReporter :=
  create NumericValue "SQL00002" SevError
    (λ props,
       value ← getProp props "value";
       value' ← ToString value;
       mret ("Value '" +:+ value' +:+ "' is not an integer."))
    (λ node, alloc (record {[ "node" := node; "property" := VString "value" ]})).

Definition BinaryOperatorNotDefinedForGivenExpressions : SqlErrorReporter :=
  create BinaryOperatorMismatch "SQL00003" SevError
    (λ props,
       op ← getProp props "op";
       left ← getProp props "left";
       right ← getProp props "right";
       op' ← ToString op;
       l ← getProp left "discriminator";
       l' ← ToString l;
       r ← getProp right "discriminator";
       r' ← ToString r;
       mret ("Binary operator '" +:+ op' +:+ "' is not defined for ('"
             +:+ l' +:+ "', '" +:+ r' +:+ "')."))
    (λ node, alloc (record {[ "node" := node; "property" := VString "operator" ]})).

Definition UnaryOperatorNotDefinedForGivenExpression : SqlErrorReporter :=
  create UnaryOperatorMismatch "SQL00004" SevError
    (λ props,
       op ← getProp props "op";
       operand ← getProp props "operand";
       op' ← ToString op;
       d ← getProp operand "discriminator";
       d' ← ToString d;
       mret ("Unary operator '" +:+ op' +:+ "' is not defined for '" +:+ d' +:+ "'."))
    (λ node, alloc (record {[ "node" := node; "property" := VString "operator" ]})).

Definition ExpressionMustReturnABoolean : SqlErrorReporter :=
  create TypeDescriptor "SQL00005" SevError
    (λ operand,
       d ← getProp operand "discriminator";
       d' ← ToString d;
       mret ("Expression must return a boolean, not a '" +:+ d' +:+ "'."))
    (λ node, alloc (record {[ "node" := node ]})).

Definition AllStarSelectionRequiresTableSources : SqlErrorReporter :=
  create (TRecord []) "SQL00006" SevError
    (λ _, mret "All-star selection requires table sources (FROM is missing).")
    (λ node, alloc (record {[ "node" := node ]})).

Definition TableDefinitionRequiresAtLeastOneColumn : SqlErrorReporter :=
  create (TRecord []) "SQL00007" SevError
    (λ _, mret "Table definition requires at least one column.")
    (λ node, alloc (record {[ "node" := node; "property" := VString "element" ]})).

Definition SubQueriesWithinSelectStatementsMustHaveExactlyOneColumn : SqlErrorReporter :=
  create (TRecord []) "SQL00008" SevError
    (λ _, mret "Sub queries within select statements must have exactly one column.")
    (λ node, alloc (record {[ "node" := node; "property" := VString "subQuery" ]})).

Definition CannotDeriveTypeOfExpression : SqlErrorReporter :=
  create (TRecord []) "SQL00009" SevError
    (λ _, mret "Unable to derive the type of the expression.")
    (λ node, alloc (record {[ "node" := node ]})).

Definition TableOperationUsesTablesWithDifferentColumnCounts : SqlErrorReporter :=
  create (TRecord []) "SQL00010" SevError
    (λ _, mret "This operation uses tables with different amounts of columns, which is forbidden. Please add the missing columns.")
    (λ node, alloc (record {[ "node" := node; "property" := VString "operator" ]})).

Definition TableOperationUsesTablesWithDifferentColumnTypes : SqlErrorReporter :=
  create (TRecord [("columnIndex", TNumber)]) "SQL00011" SevError
    (λ props,
       columnIndex ← getProp props "columnIndex";
       columnIndex' ← ToString columnIndex;
       mret ("This operation uses tables with different columns types! Compare the columns at index "
             +:+ columnIndex' +:+ ". They are not convertable to each other."))
    (λ node, alloc (record {[ "node" := node; "property" := VString "operator" ]})).

Definition IncorrectGlobalReferenceTarget : SqlErrorReporter :=
  create (TRecord [("expected", TString); ("received", TString)]) "SQL00012" SevError
    (λ props,
       expected ← getProp props "expected";
       received ← getProp props "received";
       expected' ← ToString expected;
       received' ← ToString received;
       mret ("Expected definition of type '" +:+ expected' +:+ "' but received '"
             +:+ received' +:+ "'."))
    (λ node, alloc (record {[ "node" := node; "property" := VString "element" ]})).

Definition UnknownDataType : SqlErrorReporter :=
  create (TRecord [("dataType", DataType)]) "SQL00013" SevError
    (λ props,
       dataType ← getProp props "dataType";
       dataTypeNames ← getProp dataType "dataTypeNames";
       names ← Array_join dataTypeNames " ";
       arguments ← getProp dataType "arguments";
       values ← Array_map arguments (λ dt, getProp dt "value");
       args ← Array_join values ", ";
       mret ("Unknown data type '" +:+ names +:+ "(" +:+ args +:+ ")'."))
    (λ node, alloc (record {[ "node" := node ]})).

(** The reporters in the order of the object literal. *)
Definition entries : list SqlErrorReporter :=
  [ DuplicatedVariableName;
    NumericValueIsNotInteger;
    BinaryOperatorNotDefinedForGivenExpressions;
    UnaryOperatorNotDefinedForGivenExpression;
    ExpressionMustReturnABoolean;
    AllStarSelectionRequiresTableSources;
    TableDefinitionRequiresAtLeastOneColumn;
    SubQueriesWithinSelectStatementsMustHaveExactlyOneColumn;
    CannotDeriveTypeOfExpression;
    TableOperationUsesTablesWithDifferentColumnCounts;
    TableOperationUsesTablesWithDifferentColumnTypes;
    IncorrectGlobalReferenceTarget;
    UnknownDataType ].

End Catalog.
End ReportAs.

(** ** Vocabulary of the statements *)

(** A field of a record type, read in an object of the store. *)
Definition fieldDecoded (h : heap) (o : object) (ft : string * ty) (fd : string * data) : Prop :=
  fd.1 = ft.1 ∧ ∃ x, fields o !! ft.1 = Some x ∧ decode h ft.2 x = Some fd.2.

(** [s] occurs in [t]. *)
Definition contains (t s : string) : Prop := ∃ pre post, t = pre +:+ s +:+ post.

(** What was in the store is still there, unchanged. *)
Definition preserved (h h' : heap) : Prop := ∀ l o, h !! l = Some o → h' !! l = Some o.

(** A property of the diagnostic info a sink call received, read in the
    store as it was at the call. *)
Definition infoField (c : sinkCall) (f : string) : option value :=
  match callInfo c with
  | VObject l => callHeap c !! l ≫= λ o, fields o !! f
  | _ => None
  end.

(** The object literal a catalog entry's location resolver builds, and the
    diagnostic info it has become when the sink receives it. *)
Definition target (node : value) (property : option string) : gmap string value :=
  match property with
  | Some p => {[ "node" := node; "property" := VString p ]}
  | None => {[ "node" := node ]}
  end.

Definition diagnosticInfo (node : value) (property : option string) (code : string) : object :=
  record (<["code" := VString code]> (target node property)).

(** The store after [info.code = code] on the object at [l]. *)
Definition stamped (h : heap) (l : loc) (code : string) : heap :=
  let o := default (record ∅) (h !! l) in
  <[l := mkObject (<["code" := VString code]> (fields o)) (elems o)
                  (extensible o) (readonly o)]> h.

(** The highlighted property of each entry as the spec's catalog table
    lists it, in catalog order; [None] is the whole node. *)
Definition spec_highlighted : list (option string) :=
  [ Some "name"; Some "value"; Some "operator"; Some "operator"; None; None;
    Some "element"; Some "subQuery"; None; Some "operator"; Some "operator";
    Some "element"; None ].

(** The code the spec's numbering convention gives the [n]-th entry:
    [SQL] and [n] in five digits. *)
Definition spec_code (n : nat) : string :=
  let ds := JSNumber.digits (Z.of_nat n) in
  "SQL" +:+ JSNumber.zeros (5 - String.length ds) +:+ ds.

Definition isDigit (c : Ascii.ascii) : bool :=
  (48 <=? Ascii.nat_of_ascii c)%nat && (Ascii.nat_of_ascii c <=? 57)%nat.

(** [SQL#####]. *)
Definition isSqlCode (s : string) : bool :=
  String.prefix "SQL" s
  && (String.length s =? 8)%nat
  && forallb isDigit (list_ascii_of_string (substring 3 5 s)).

(** ** A concrete host, store and sinks *)

(** Objects without a conversion of their own, as [Object.prototype]
    converts them. *)
Definition plainObjects : Host := {| ObjectToString := λ _, mret "[object Object]" |}.

(** A sink that returns, and one that throws. *)
Definition quietSink : ValidationAcceptor := λ _ _ _, mret ().
Definition failingSink : ValidationAcceptor := λ _ _ _, throw (Thrown (VString "sink failed")).

(** A source item at 1, type descriptors at 2 and 3, a data type node
    [DECIMAL(10, 2)] at 4 with its arrays at 5 and 6 and its argument
    literals at 7 and 8, and one parameter record per shape from 10 on. *)
Definition exampleStore : heap :=
  list_to_map
    [ (1%positive, record {[ "$type" := VString "SourceItem"; "name" := VString "x" ]});
      (2%positive, record {[ "discriminator" := VString "integer" ]});
      (3%positive, record {[ "discriminator" := VString "text" ]});
      (4%positive, record {[ "$type" := VString "DataType";
                             "dataTypeNames" := VObject 5%positive;
                             "arguments" := VObject 6%positive ]});
      (5%positive, array [VString "DECIMAL"]);
      (6%positive, array [VObject 7%positive; VObject 8%positive]);
      (7%positive, record {[ "$type" := VString "NumberLiteral"; "value" := VNumber (JSNumber.ofZ 10) ]});
      (8%positive, record {[ "$type" := VString "NumberLiteral"; "value" := VNumber (JSNumber.ofZ 2) ]});
      (10%positive, record {[ "name" := VString "x" ]});
      (11%positive, record {[ "value" := VNumber (JSNumber.div (JSNumber.ofZ 3) (JSNumber.ofZ 2)) ]});
      (12%positive, record {[ "op" := VString "+"; "left" := VObject 2%positive; "right" := VObject 3%positive ]});
      (13%positive, record {[ "op" := VString "-"; "operand" := VObject 3%positive ]});
      (14%positive, record ∅);
      (15%positive, record {[ "columnIndex" := VNumber (JSNumber.ofZ 2) ]});
      (16%positive, record {[ "expected" := VString "TableDefinition"; "received" := VString "FunctionDefinition" ]});
      (17%positive, record {[ "dataType" := VObject 4%positive ]}) ].

(** The parameter record of [exampleStore] for the entry at index [i]. *)
Definition exampleParams (i : nat) : value :=
  match i with
  | 0 => VObject 10%positive
  | 1 => VObject 11%positive
  | 2 => VObject 12%positive
  | 3 => VObject 13%positive
  | 4 => VObject 2%positive
  | 10 => VObject 15%positive
  | 11 => VObject 16%positive
  | 12 => VObject 17%positive
  | _ => VObject 14%positive
  end.

(** ** Vocabulary of the further properties *)

Definition isNullish (v : value) : Prop := v = VUndefined ∨ v = VNull.

Definition isObject (v : value) : Prop := ∃ l, v = VObject l.


(** What [v.f] reads when [v] is neither [undefined] nor [null]. *)
Definition readProp (h : heap) (v : value) (f : string) : value :=
  match v with
  | VObject l => default VUndefined (h !! l ≫= λ o, fields o !! f)
  | _ => VUndefined
  end.

(** The text a template literal shows for a value that is neither an
    object nor a symbol. *)
Definition textOf (v : value) : string :=
  match v with
  | VUndefined => "undefined"
  | VNull => "null"
  | VBoolean b => if b then "true" else "false"
  | VNumber x => JSNumber.toString x
  | VBigInt z => bigIntText z
  | VString s => s
  | VSymbol _ | VObject _ => ""
  end.




(** A host whose objects refuse to be converted. *)
Definition throwingObjects : Host :=
  {| ObjectToString := λ _, throw (TypeError "Cannot convert object to primitive value") |}.

(** The sink call [ReportAs.DuplicatedVariableName] makes on the source item
    and the record at 10 of [exampleStore]. *)
Definition exampleCall : sinkCall :=
  mkSinkCall SevError "Duplicated variable name 'x'."
    (VObject (fresh (dom exampleStore)))
    (<[fresh (dom exampleStore) :=
         diagnosticInfo (VObject 1%positive) (Some "name") "SQL00001"]> exampleStore).

(** * Lemmas *)

(** ** Strings *)

Lemma append_cons x (a b : string) : String x a +:+ b = String x (a +:+ b).
Proof. reflexivity. Qed.

Lemma append_assoc (a b c : string) : (a +:+ b) +:+ c = a +:+ (b +:+ c).
Proof. induction a as [|x a IH]; [done |]. by rewrite !append_cons, IH. Qed.

Lemma append_nil_r (a : string) : a +:+ "" = a.
Proof. induction a as [|x a IH]; [done |]. by rewrite append_cons, IH. Qed.

Lemma contains_refl s : contains s s.
Proof. exists "", "". by rewrite append_nil_r. Qed.

Lemma contains_app_l t u s : contains t s → contains (t +:+ u) s.
Proof.
  intros (pre & post & ->). exists pre, (post +:+ u).
  by rewrite !append_assoc.
Qed.

Lemma contains_app_r t u s : contains u s → contains (t +:+ u) s.
Proof.
  intros (pre & post & ->). exists (t +:+ pre), post.
  by rewrite !append_assoc.
Qed.

Lemma contains_concat sep (l : list string) s :
  s ∈ l → contains (String.concat sep l) s.
Proof.
  induction l as [|x l IH]; intros Hin; [by apply elem_of_nil in Hin |].
  apply elem_of_cons in Hin. destruct l as [|y l].
  - destruct Hin as [-> | Hin]; [apply contains_refl | by apply elem_of_nil in Hin].
  - change (String.concat sep (x :: y :: l))
      with (x +:+ sep +:+ String.concat sep (y :: l)).
    destruct Hin as [-> | Hin].
    + apply contains_app_l, contains_refl.
    + by apply contains_app_r, contains_app_r, IH.
Qed.

Create HintDb substr.
#[local] Hint Resolve contains_refl contains_app_l contains_app_r : substr.

(** ** Running a computation *)

#[local] Arguments getProp : simpl never.
#[local] Arguments ToString : simpl never.
#[local] Arguments messageGenerator : simpl never.

Lemma bind_Ok {S A B} (m : Eff S A) (f : A → Eff S B) s a s' :
  m s = (Ok a, s') → (m ≫= f) s = f a s'.
Proof. intros E. unfold mbind, Eff_bind. by rewrite E. Qed.

Lemma run_getProp {B} (h : heap) l o f x (k : value → JS B) :
  h !! l = Some o → fields o !! f = Some x →
  (getProp (VObject l) f ≫= k) h = k x h.
Proof.
  intros Hl Hf. apply bind_Ok. unfold getProp. rewrite Hl. simpl. by rewrite Hf.
Qed.

(** ** The store *)

Lemma fresh_None (h : heap) : h !! fresh (dom h) = None.
Proof. apply not_elem_of_dom, is_fresh. Qed.

Lemma preserved_refl h : preserved h h.
Proof. by intros l o. Qed.

Lemma preserved_trans h1 h2 h3 : preserved h1 h2 → preserved h2 h3 → preserved h1 h3.
Proof. intros H12 H23 l o Hl. by apply H23, H12. Qed.

Lemma preserved_alloc h o : preserved h (<[fresh (dom h) := o]> h).
Proof.
  intros l o' Hl. rewrite lookup_insert_ne; [done |].
  intros <-. by rewrite fresh_None in Hl.
Qed.

Lemma canWrite_record fs f : canWrite (record fs) f = true.
Proof.
  unfold canWrite. cbn. destruct (fs !! f); [| done].
  apply bool_decide_eq_true. set_solver.
Qed.

Lemma stamped_alloc (h : heap) fs code :
  stamped (<[fresh (dom h) := record fs]> h) (fresh (dom h)) code
  = <[fresh (dom h) := record (<["code" := VString code]> fs)]> h.
Proof. unfold stamped. by rewrite lookup_insert_eq, insert_insert_eq. Qed.

(** ** Reading a store at a declared type *)

Lemma decode_TString h v d :
  decode h TString v = Some d → ∃ s, v = VString s ∧ d = DString s.
Proof. destruct v; intros Hd; simplify_eq/=. eauto. Qed.

Lemma decode_TNumber h v d :
  decode h TNumber v = Some d →
  ∃ x, v = VNumber x ∧ d = DNumber x ∧ JSNumber.isNumber x = true.
Proof.
  destruct v as [| | |x| | | |]; intros Hd; simplify_eq/=.
  destruct (JSNumber.isNumber x) eqn:E; simplify_eq. eauto.
Qed.

Lemma decode_TRecord h f t fs v d :
  decode h (TRecord ((f, t) :: fs)) v = Some d →
  ∃ l o ds, v = VObject l ∧ h !! l = Some o ∧ d = DRecord ds
            ∧ Forall2 (fieldDecoded h o) ((f, t) :: fs) ds.
Proof.
  intros Hd. destruct v as [| | | | | | |l]; try discriminate.
  change (decode h (TRecord ((f, t) :: fs)) (VObject l))
    with (o ← h !! l;
          DRecord <$> mapM (λ ft, x ← fields o !! ft.1;
                                  d ← decode h ft.2 x;
                                  Some (ft.1, d)) ((f, t) :: fs)) in Hd.
  destruct (h !! l) as [o|] eqn:Hl; [| discriminate].
  apply fmap_Some in Hd as (ds & Hds & ->).
  exists l, o, ds. split_and!; [done.. |].
  apply mapM_Some in Hds.
  eapply Forall2_impl; [exact Hds |].
  intros ft fd Hf. apply bind_Some in Hf as (x & Hx & Hf).
  apply bind_Some in Hf as (d' & Hd' & Hf). simplify_eq.
  split; [done |]. eauto.
Qed.

Lemma decode_TRecord_nil h v d : decode h (TRecord []) v = Some d → d = DRecord [].
Proof.
  destruct v; intros Hd; simplify_eq/=; try done.
  by repeat (simplify_option_eq; try case_match).
Qed.

Lemma decode_TArray h t v d :
  decode h (TArray t) v = Some d →
  ∃ l o vs ds, v = VObject l ∧ h !! l = Some o ∧ elems o = Some vs
               ∧ mapM (decode h t) vs = Some ds ∧ d = DArray ds.
Proof.
  intros Hd. destruct v as [| | | | | | |l]; try discriminate.
  change (decode h (TArray t) (VObject l))
    with (vs ← h !! l ≫= elems; DArray <$> mapM (decode h t) vs) in Hd.
  apply bind_Some in Hd as (vs & Hvs & Hd).
  apply bind_Some in Hvs as (o & Hl & He).
  apply fmap_Some in Hd as (ds & Hds & ->).
  by exists l, o, vs, ds.
Qed.

Ltac invert_decode :=
  repeat match goal with
    | Hd : decode _ TString _ = Some _ |- _ =>
        apply decode_TString in Hd as (? & ? & ?)
    | Hd : decode _ TNumber _ = Some _ |- _ =>
        apply decode_TNumber in Hd as (? & ? & ? & ?)
    | Hd : decode _ (TRecord []) _ = Some _ |- _ =>
        apply decode_TRecord_nil in Hd
    | Hd : decode _ (TRecord (_ :: _)) _ = Some _ |- _ =>
        apply decode_TRecord in Hd as (? & ? & ? & ? & ? & ? & ?)
    | Hd : decode _ (TArray _) _ = Some _ |- _ =>
        apply decode_TArray in Hd as (? & ? & ? & ? & ? & ? & ? & ? & ?)
    | Hf : Forall2 _ (_ :: _) _ |- _ =>
        apply Forall2_cons_inv_l in Hf as ([? ?] & ? & (? & ? & ? & ?) & ? & ?)
    | Hf : Forall2 _ [] _ |- _ =>
        apply Forall2_nil_inv_l in Hf
    | Hd : decode _ ?T _ = Some _ |- _ => unfold T in Hd
    | _ => progress (simpl fst in *; simpl snd in *; simplify_eq)
    end.

(** ** The operations under a host *)

Section OperationLemmas.
Context `{Host}.

Lemma run_ToString_string {B} (h : heap) s (k : string → JS B) :
  (ToString (VString s) ≫= k) h = k s h.
Proof. done. Qed.

Lemma run_ToString_number {B} (h : heap) x (k : string → JS B) :
  (ToString (VNumber x) ≫= k) h = k (JSNumber.toString x) h.
Proof. done. Qed.

Lemma joinElems_strings sep (names : list string) (h : heap) :
  joinElems sep (VString <$> names) h = (Ok (String.concat sep names), h).
Proof.
  induction names as [|x [|y names] IH]; [done | done |].
  change (joinElems sep (VString <$> x :: y :: names))
    with ((s ← joinElem (VString x); r ← joinElems sep (VString <$> y :: names);
           mret (s +:+ sep +:+ r)) : JS string).
  unfold joinElem. rewrite run_ToString_string.
  by erewrite bind_Ok by exact IH.
Qed.

Lemma joinElems_numbers sep (xs : list number) (h : heap) :
  joinElems sep (VNumber <$> xs) h
  = (Ok (String.concat sep (JSNumber.toString <$> xs)), h).
Proof.
  induction xs as [|x [|y xs] IH]; [done | done |].
  change (joinElems sep (VNumber <$> x :: y :: xs))
    with ((s ← joinElem (VNumber x); r ← joinElems sep (VNumber <$> y :: xs);
           mret (s +:+ sep +:+ r)) : JS string).
  unfold joinElem. rewrite run_ToString_number.
  by erewrite bind_Ok by exact IH.
Qed.

Lemma run_Array_join {B} (h : heap) l o vs sep s (k : string → JS B) :
  h !! l = Some o → elems o = Some vs → joinElems sep vs h = (Ok s, h) →
  (Array_join (VObject l) sep ≫= k) h = k s h.
Proof.
  intros Hl He Hj. apply bind_Ok. unfold Array_join.
  erewrite bind_Ok; [exact Hj |]. cbn. rewrite Hl. cbn. by rewrite He.
Qed.

Lemma run_Array_map {B} (h : heap) l o vs f xs (k : value → JS B) :
  h !! l = Some o → elems o = Some vs → mapElems f vs h = (Ok xs, h) →
  (Array_map (VObject l) f ≫= k) h
  = k (VObject (fresh (dom h))) (<[fresh (dom h) := array xs]> h).
Proof.
  intros Hl He Hm. apply bind_Ok. unfold Array_map.
  erewrite bind_Ok; [| cbn; rewrite Hl; cbn; by rewrite He].
  by erewrite bind_Ok by exact Hm.
Qed.

(** An array of strings, read back from its decoding. *)
Lemma decode_strings (h : heap) vs ds :
  mapM (decode h TString) vs = Some ds →
  vs = VString <$> concat (texts <$> ds).
Proof.
  intros Hd. apply mapM_Some in Hd.
  induction Hd as [|v d vs ds Hd _ IH]; [done |].
  apply decode_TString in Hd as (s & -> & ->).
  cbn. by f_equal.
Qed.

(** [arguments.map(dt => dt.value)] on an array of number literals. *)
Lemma decode_literals (h : heap) vs ds :
  mapM (decode h NumberLiteral) vs = Some ds →
  ∃ xs, mapElems (λ dt, getProp dt "value") vs h = (Ok (VNumber <$> xs), h)
        ∧ concat (texts <$> ds) = JSNumber.toString <$> xs.
Proof.
  intros Hd. apply mapM_Some in Hd.
  induction Hd as [|v d vs ds Hd _ (xs & Hrun & Hn)]; [by exists [] |].
  invert_decode.
  eexists (_ :: xs). split.
  - cbn [mapElems]. erewrite run_getProp by eassumption.
    by erewrite bind_Ok by exact Hrun.
  - cbn. by rewrite Hn.
Qed.

End OperationLemmas.

(** ** The factory *)

Section FactoryLemmas.
Import SqlErrorFactory.

(** The body of a created reporter once both generators have returned. *)
Lemma report_create P code sev mg dg node props accept h log msg h1 l h2 o :
  mg props h = (Ok msg, h1) →
  dg node h1 = (Ok (VObject l), h2) →
  h2 !! l = Some o →
  canWrite o "code" = true →
  report (create P code sev mg dg) node props accept (mkWorld h log)
  = callSink accept sev msg (VObject l) (mkWorld (stamped h2 l code) log).
Proof.
  intros Hmg Hdg Hl Hw. cbn [report create].
  erewrite bind_Ok; [| unfold inStore; cbn [store sinkCalls]; by rewrite Hmg].
  erewrite bind_Ok; [done |].
  unfold inStore. cbn [store sinkCalls].
  erewrite bind_Ok by exact Hdg.
  unfold setProp, stamped, mbind, Eff_bind. rewrite Hl. cbv beta zeta.
  cbn [default]. unfold id. by rewrite Hw.
Qed.

(** An invocation adds no sink call or one, which carries the severity and
    the code of the reporter. *)
Lemma report_create_calls P code sev mg dg node props accept w :
  let w' := (report (create P code sev mg dg) node props accept w).2 in
  sinkCalls w' = sinkCalls w
  ∨ ∃ c, sinkCalls w' = sinkCalls w ++ [c]
         ∧ callSeverity c = sev
         ∧ infoField c "code" = Some (VString code).
Proof.
  destruct w as [h log].
  cbv [report create mbind Eff_bind inStore mret Eff_ret callSink store sinkCalls snd].
  destruct (mg props h) as [[msg|e] h1]; [| by left].
  destruct (dg node h1) as [[info|e] h2]; [| by left].
  destruct info as [| | | | | | |l]; try by left.
  cbn [setProp]. destruct (canWrite _ "code"); [| by left].
  right. destruct (accept sev msg (VObject l) _) as [r hf].
  eexists. split; [done |]. split; [done |].
  unfold infoField. cbn. rewrite lookup_insert_eq. cbn. by rewrite lookup_insert_eq.
Qed.

End FactoryLemmas.

(** ** The catalog *)

Section CatalogLemmas.
Context `{Host}.
Import SqlErrorFactory ReportAs.

Ltac each_entry Hi :=
  unfold entries in Hi;
  repeat (match type of Hi with
          | (_ :: _) !! ?i = Some _ =>
              destruct i; [apply (inj Some) in Hi; subst |]; cbn [lookup list_lookup] in Hi
          end);
  [.. | discriminate Hi].

Ltac unfold_entry :=
  cbv [messageGenerator diagnosticGenerator paramType severity Code create
       DuplicatedVariableName NumericValueIsNotInteger
       BinaryOperatorNotDefinedForGivenExpressions
       UnaryOperatorNotDefinedForGivenExpression ExpressionMustReturnABoolean
       AllStarSelectionRequiresTableSources TableDefinitionRequiresAtLeastOneColumn
       SubQueriesWithinSelectStatementsMustHaveExactlyOneColumn
       CannotDeriveTypeOfExpression TableOperationUsesTablesWithDifferentColumnCounts
       TableOperationUsesTablesWithDifferentColumnTypes IncorrectGlobalReferenceTarget
       UnknownDataType].

Ltac run :=
  repeat first
    [ erewrite run_getProp by eassumption
    | rewrite run_ToString_string
    | rewrite run_ToString_number ].

Lemma entries_created i r :
  entries !! i = Some r →
  r = create (paramType r) (Code r) (severity r) (messageGenerator r) (diagnosticGenerator r).
Proof. intros Hi. each_entry Hi; reflexivity. Qed.

Lemma entries_severity i r : entries !! i = Some r → severity r = SevError.
Proof. intros Hi. each_entry Hi; reflexivity. Qed.

Lemma entries_diagnosticGenerator i r :
  entries !! i = Some r →
  ∃ p, spec_highlighted !! i = Some p
       ∧ ∀ node, diagnosticGenerator r node = alloc (record (target node p)).
Proof. intros Hi. each_entry Hi; eexists; (split; [reflexivity | done]). Qed.

Lemma texts_dataType f g k names args :
  texts (DRecord [(f, DRecord [(g, DArray names); (k, DArray args)])])
  = concat (texts <$> names) ++ concat (texts <$> args).
Proof. cbn. by rewrite !app_nil_r. Qed.

(** The renderer of an entry, on a parameter record of the declared type:
    it returns a message that is a function of the record's content, leaves
    the objects of the store as they were, and the message is not empty and
    shows every value of the record. *)
Lemma entries_messageGenerator i r :
  entries !! i = Some r →
  ∃ render : data → string,
    ∀ (h : heap) props d,
      decode h (paramType r) props = Some d →
      ∃ h1, messageGenerator r props h = (Ok (render d), h1)
            ∧ preserved h h1
            ∧ render d ≠ ""
            ∧ Forall (contains (render d)) (texts d).
Proof.
  intros Hi. each_entry Hi.
  - exists (λ d, match texts d with
                 | [name] => "Duplicated variable name '" +:+ name +:+ "'."
                 | _ => ""
                 end).
    intros h props d Hd. cbn [paramType create DuplicatedVariableName] in Hd.
    invert_decode. exists h. unfold_entry. run.
    split_and!; [done | apply preserved_refl | done |].
    cbn. repeat constructor; eauto 10 with substr.
  - exists (λ d, match texts d with
                 | [value] => "Value '" +:+ value +:+ "' is not an integer."
                 | _ => ""
                 end).
    intros h props d Hd. cbn [paramType create NumericValueIsNotInteger] in Hd.
    invert_decode. exists h. unfold_entry. run.
    split_and!; [done | apply preserved_refl | done |].
    cbn. repeat constructor; eauto 10 with substr.
  - exists (λ d, match texts d with
                 | [op; l; r] =>
                     "Binary operator '" +:+ op +:+ "' is not defined for ('"
                     +:+ l +:+ "', '" +:+ r +:+ "')."
                 | _ => ""
                 end).
    intros h props d Hd.
    cbn [paramType create BinaryOperatorNotDefinedForGivenExpressions] in Hd.
    invert_decode. exists h. unfold_entry. run.
    split_and!; [done | apply preserved_refl | done |].
    cbn. repeat constructor; eauto 10 with substr.
  - exists (λ d, match texts d with
                 | [op; operand] =>
                     "Unary operator '" +:+ op +:+ "' is not defined for '"
                     +:+ operand +:+ "'."
                 | _ => ""
                 end).
    intros h props d Hd.
    cbn [paramType create UnaryOperatorNotDefinedForGivenExpression] in Hd.
    invert_decode. exists h. unfold_entry. run.
    split_and!; [done | apply preserved_refl | done |].
    cbn. repeat constructor; eauto 10 with substr.
  - exists (λ d, match texts d with
                 | [operand] =>
                     "Expression must return a boolean, not a '" +:+ operand +:+ "'."
                 | _ => ""
                 end).
    intros h props d Hd. cbn [paramType create ExpressionMustReturnABoolean] in Hd.
    invert_decode. exists h. unfold_entry. run.
    split_and!; [done | apply preserved_refl | done |].
    cbn. repeat constructor; eauto 10 with substr.
  - exists (λ _, "All-star selection requires table sources (FROM is missing).").
    intros h props d Hd. cbn [paramType create AllStarSelectionRequiresTableSources] in Hd.
    invert_decode. exists h.
    split_and!; [done | apply preserved_refl | done | constructor].
  - exists (λ _, "Table definition requires at least one column.").
    intros h props d Hd.
    cbn [paramType create TableDefinitionRequiresAtLeastOneColumn] in Hd.
    invert_decode. exists h.
    split_and!; [done | apply preserved_refl | done | constructor].
  - exists (λ _, "Sub queries within select statements must have exactly one column.").
    intros h props d Hd.
    cbn [paramType create SubQueriesWithinSelectStatementsMustHaveExactlyOneColumn] in Hd.
    invert_decode. exists h.
    split_and!; [done | apply preserved_refl | done | constructor].
  - exists (λ _, "Unable to derive the type of the expression.").
    intros h props d Hd. cbn [paramType create CannotDeriveTypeOfExpression] in Hd.
    invert_decode. exists h.
    split_and!; [done | apply preserved_refl | done | constructor].
  - exists (λ _, "This operation uses tables with different amounts of columns, which is forbidden. Please add the missing columns.").
    intros h props d Hd.
    cbn [paramType create TableOperationUsesTablesWithDifferentColumnCounts] in Hd.
    invert_decode. exists h.
    split_and!; [done | apply preserved_refl | done | constructor].
  - exists (λ d, match texts d with
                 | [columnIndex] =>
                     "This operation uses tables with different columns types! Compare the columns at index "
                     +:+ columnIndex +:+ ". They are not convertable to each other."
                 | _ => ""
                 end).
    intros h props d Hd.
    cbn [paramType create TableOperationUsesTablesWithDifferentColumnTypes] in Hd.
    invert_decode. exists h. unfold_entry. run.
    split_and!; [done | apply preserved_refl | done |].
    cbn. repeat constructor; eauto 10 with substr.
  - exists (λ d, match texts d with
                 | [expected; received] =>
                     "Expected definition of type '" +:+ expected
                     +:+ "' but received '" +:+ received +:+ "'."
                 | _ => ""
                 end).
    intros h props d Hd. cbn [paramType create IncorrectGlobalReferenceTarget] in Hd.
    invert_decode. exists h. unfold_entry. run.
    split_and!; [done | apply preserved_refl | done |].
    cbn. repeat constructor; eauto 10 with substr.
  - exists (λ d, match d with
                 | DRecord [(_, DRecord [(_, names); (_, args)])] =>
                     "Unknown data type '" +:+ String.concat " " (texts names)
                     +:+ "(" +:+ String.concat ", " (texts args) +:+ ")'."
                 | _ => ""
                 end).
    intros h props d Hd. cbn [paramType create UnknownDataType] in Hd.
    invert_decode.
    match goal with Hs : mapM (decode _ TString) _ = Some _ |- _ =>
      apply decode_strings in Hs; subst end.
    match goal with Hs : mapM (decode _ NumberLiteral) _ = Some _ |- _ =>
      apply (decode_literals h) in Hs as (xs & Hrun & Hn) end.
    exists (<[fresh (dom h) := array (VNumber <$> xs)]> h).
    unfold_entry. run.
    erewrite run_Array_join; [| eassumption.. | apply joinElems_strings].
    run.
    erewrite run_Array_map; [| eassumption..].
    erewrite run_Array_join;
      [| apply lookup_insert_eq | reflexivity | apply joinElems_numbers].
    rewrite texts_dataType. cbn [texts]. rewrite Hn.
    split_and!; [done | apply preserved_alloc | done |].
    apply Forall_app. split; apply Forall_forall; intros s Hs.
    + apply contains_app_r, contains_app_l. by apply contains_concat.
    + do 3 apply contains_app_r. apply contains_app_l. by apply contains_concat.
Qed.

(** An invocation of an entry on a parameter record of the declared type
    comes down to one call of the sink. *)
Lemma entries_report i r (h : heap) log node props accept d :
  entries !! i = Some r →
  decode h (paramType r) props = Some d →
  ∃ msg h1 p,
    let l := fresh (dom h1) in
    messageGenerator r props h = (Ok msg, h1)
    ∧ spec_highlighted !! i = Some p
    ∧ preserved h h1
    ∧ msg ≠ ""
    ∧ Forall (contains msg) (texts d)
    ∧ report r node props accept (mkWorld h log)
      = callSink accept SevError msg (VObject l)
          (mkWorld (<[l := diagnosticInfo node p (Code r)]> h1) log).
Proof.
  intros Hi Hd.
  destruct (entries_messageGenerator i r Hi) as (render & Hrender).
  destruct (Hrender h props d Hd) as (h1 & Hmg & Hpres & Hne & Hall).
  destruct (entries_diagnosticGenerator i r Hi) as (p & Hp & Hdg).
  exists (render d), h1, p. split_and!; try done.
  rewrite (entries_created i r Hi) at 1.
  erewrite report_create;
    [| exact Hmg | by rewrite Hdg | apply lookup_insert_eq | apply canWrite_record].
  by rewrite (entries_severity i r Hi), stamped_alloc.
Qed.

End CatalogLemmas.

(** ** What the sink receives *)




Lemma callSink_calls accept sev msg info (h : heap) log :
  sinkCalls (callSink accept sev msg info (mkWorld h log)).2
  = log ++ [mkSinkCall sev msg info h].
Proof. unfold callSink. cbn. by destruct (accept sev msg info h). Qed.



(** * The claims *)

Section Claims.
Context `{Host}.
Import SqlErrorFactory ReportAs.


(** C2. The thirteen codes are pairwise distinct, each is [SQL] followed
    by five digits, and the entry at position [n] of the catalog, counted
    from one, has the code [SQL] with [n] in five digits: [SQL00001] up to
    [SQL00013] without a gap. *)
Theorem codes_distinct_and_numbered :
  length entries = 13
  ∧ NoDup (Code <$> entries)
  ∧ size (list_to_set (Code <$> entries) : gset string) = 13
  ∧ Forall (λ r, isSqlCode (Code r) = true) entries
  ∧ Code <$> entries = spec_code <$> seq 1 13.
Proof.
  split_and!.
  - reflexivity.
  - apply (bool_decide_unpack (NoDup (Code <$> entries))). by vm_compute.
  - by vm_compute.
  - repeat constructor.
  - reflexivity.
Qed.

(** C3. On every value of an entry's declared parameter type the renderer
    returns a message and does not throw; the values at the edge of the
    type are rendered by their literal textual form, which occurs in the
    message like that of any other value. *)
Theorem rendering_never_throws i r (h : heap) props d :
  entries !! i = Some r →
  decode h (paramType r) props = Some d →
  ∃ msg h1,
    messageGenerator r props h = (Ok msg, h1)
    ∧ Forall (contains msg) (texts d).
Proof.
  intros Hi Hd.
  destruct (entries_messageGenerator i r Hi) as (render & Hrender).
  destruct (Hrender h props d Hd) as (h1 & Hmg & _ & _ & Hall).
  by exists (render d), h1.
Qed.



(** C6. Two invocations of an entry whose parameter records have the same
    content, in whatever stores and on whatever nodes and sinks, render the
    same message, and rendering changes no object of the store. *)
Theorem rendering_deterministic i r (h h' : heap) log log' node node'
    props props' accept accept' d :
  entries !! i = Some r →
  decode h (paramType r) props = Some d →
  decode h' (paramType r) props' = Some d →
  ∃ msg h1 h1',
    messageGenerator r props h = (Ok msg, h1)
    ∧ messageGenerator r props' h' = (Ok msg, h1')
    ∧ preserved h h1
    ∧ preserved h' h1'
    ∧ callMessage <$> last (sinkCalls (report r node props accept (mkWorld h log)).2)
      = Some msg
    ∧ callMessage <$> last (sinkCalls (report r node' props' accept' (mkWorld h' log')).2)
      = Some msg.
Proof.
  intros Hi Hd Hd'.
  destruct (entries_messageGenerator i r Hi) as (render & Hrender).
  destruct (Hrender h props d Hd) as (h1 & Hmg & Hpres & _).
  destruct (Hrender h' props' d Hd') as (h1' & Hmg' & Hpres' & _).
  destruct (entries_report i r h log node props accept d Hi Hd)
    as (msg & h2 & p & Hmsg & _ & _ & _ & _ & Hrun).
  destruct (entries_report i r h' log' node' props' accept' d Hi Hd')
    as (msg' & h2' & p' & Hmsg' & _ & _ & _ & _ & Hrun').
  exists (render d), h1, h1'. split_and!; try done.
  - rewrite Hrun, callSink_calls, last_snoc. cbn. congruence.
  - rewrite Hrun', callSink_calls, last_snoc. cbn. congruence.
Qed.

(** C7. A reporter made by [SqlErrorFactory.create] has the code it was
    made with as its [Code].  Whenever an invocation of it calls the sink,
    the diagnostic info of that call has that code as its [code].  And when
    both generators return and the resolved target is an object whose
    [code] can be written, the invocation is one call of the sink with the
    rendered message and that target, in the store in which the target has
    already been stamped with the code. *)
Theorem created_reporter_carries_code P code sev mg dg node props accept w :
  Code (create P code sev mg dg) = code
  ∧ (sinkCalls (report (create P code sev mg dg) node props accept w).2 = sinkCalls w
     ∨ ∃ c, sinkCalls (report (create P code sev mg dg) node props accept w).2
            = sinkCalls w ++ [c]
            ∧ infoField c "code" = Some (VString code))
  ∧ ∀ msg h1 l o h2,
      mg props (store w) = (Ok msg, h1) →
      dg node h1 = (Ok (VObject l), h2) →
      h2 !! l = Some o →
      canWrite o "code" = true →
      let c := mkSinkCall sev msg (VObject l) (stamped h2 l code) in
      report (create P code sev mg dg) node props accept w
      = callSink accept sev msg (VObject l) (mkWorld (stamped h2 l code) (sinkCalls w))
      ∧ sinkCalls (report (create P code sev mg dg) node props accept w).2
        = sinkCalls w ++ [c]
      ∧ infoField c "code" = Some (VString code).
Proof.
  split; [reflexivity |]. split.
  - destruct (report_create_calls P code sev mg dg node props accept w)
      as [Hnone | (c & Hone & _ & Hcode)]; [by left |].
    right. by exists c.
  - intros msg h1 l o h2 Hmg Hdg Hl Hw c. destruct w as [h log].
    cbn [store sinkCalls] in *.
    rewrite (report_create _ _ _ _ _ _ _ _ _ _ _ _ _ _ _ Hmg Hdg Hl Hw).
    split; [reflexivity |]. split; [apply callSink_calls |].
    unfold c, infoField, stamped. cbn [callInfo callHeap].
    rewrite lookup_insert_eq. cbn. by rewrite lookup_insert_eq.
Qed.

(** C8. An invocation of an entry on a parameter record of its declared
    type renders the message from the record, resolves the target from the
    node, and calls the sink once with them: the outcome of the invocation
    is the outcome of that call, thrown exception included, the final store
    is the one the sink leaves, and the store the sink receives has every
    object it had before the invocation, unchanged, and the new target. *)
Theorem entry_calls_sink_once i r (h : heap) log node props accept d :
  entries !! i = Some r →
  decode h (paramType r) props = Some d →
  ∃ msg h1 l h2,
    messageGenerator r props h = (Ok msg, h1)
    ∧ diagnosticGenerator r node h1 = (Ok (VObject l), h2)
    ∧ h !! l = None
    ∧ preserved h (stamped h2 l (Code r))
    ∧ report r node props accept (mkWorld h log)
      = let '(result, h3) := accept (severity r) msg (VObject l) (stamped h2 l (Code r)) in
        (result,
         mkWorld h3 (log ++ [mkSinkCall (severity r) msg (VObject l) (stamped h2 l (Code r))])).
Proof.
  intros Hi Hd.
  destruct (entries_report i r h log node props accept d Hi Hd)
    as (msg & h1 & p & Hmsg & _ & Hpres & _ & _ & Hrun).
  destruct (entries_diagnosticGenerator i r Hi) as (p' & _ & Hdg).
  exists msg, h1, (fresh (dom h1)), (<[fresh (dom h1) := record (target node p')]> h1).
  split_and!.
  - exact Hmsg.
  - by rewrite Hdg.
  - destruct (h !! fresh (dom h1)) as [o|] eqn:Hl; [| done].
    apply Hpres in Hl. by rewrite fresh_None in Hl.
  - rewrite stamped_alloc. eapply preserved_trans; [exact Hpres |].
    apply preserved_alloc.
  - rewrite (entries_created i r Hi) at 1.
    erewrite report_create;
      [| exact Hmsg | by rewrite Hdg | apply lookup_insert_eq | apply canWrite_record].
    reflexivity.
Qed.

(** C9. Every entry of the catalog is made with severity [error], and every
    call to the sink that an invocation of an entry makes, on whatever
    arguments, has severity [error]. *)
Theorem catalog_severity_is_error r node props accept w :
  r ∈ entries →
  severityString (severity r) = "error"
  ∧ ∃ calls,
      sinkCalls (report r node props accept w).2 = sinkCalls w ++ calls
      ∧ Forall (λ c, severityString (callSeverity c) = "error") calls.
Proof.
  intros Hr. apply list_elem_of_lookup in Hr as (i & Hi).
  split; [by rewrite (entries_severity i r Hi) |].
  rewrite (entries_created i r Hi).
  destruct (report_create_calls (paramType r) (Code r) (severity r)
              (messageGenerator r) (diagnosticGenerator r) node props accept w)
    as [Hnone | (c & Hone & Hsev & _)].
  - exists []. by rewrite app_nil_r.
  - exists [c]. split; [done |].
    constructor; [| done]. by rewrite Hsev, (entries_severity i r Hi).
Qed.


End Claims.

(** * The catalog at work

    The claims instantiated on [exampleStore] under [plainObjects], and the
    renderers run on values at the edge of their types. *)

Section Examples.
#[local] Existing Instance plainObjects.
Import ReportAs.


Lemma rendering_never_throws_witness :
  entries !! 12 = Some UnknownDataType
  ∧ decode exampleStore (paramType UnknownDataType) (VObject 17%positive)
    = Some (DRecord
              [("dataType",
                DRecord [("dataTypeNames", DArray [DString "DECIMAL"]);
                         ("arguments",
                          DArray [DRecord [("value", DNumber (JSNumber.ofZ 10))];
                                  DRecord [("value", DNumber (JSNumber.ofZ 2))]])])])
  ∧ ∃ msg h1,
      messageGenerator UnknownDataType (VObject 17%positive) exampleStore = (Ok msg, h1)
      ∧ Forall (contains msg) ["DECIMAL"; "10"; "2"].
Proof.
  split; [reflexivity |]. split; [vm_compute; reflexivity |].
  apply (rendering_never_throws 12 UnknownDataType exampleStore (VObject 17%positive)
           (DRecord
              [("dataType",
                DRecord [("dataTypeNames", DArray [DString "DECIMAL"]);
                         ("arguments",
                          DArray [DRecord [("value", DNumber (JSNumber.ofZ 10))];
                                  DRecord [("value", DNumber (JSNumber.ofZ 2))]])])]));
    [reflexivity | vm_compute; reflexivity].
Defined.



Lemma rendering_deterministic_witness :
  entries !! 0 = Some DuplicatedVariableName
  ∧ decode exampleStore Nameable (VObject 10%positive)
    = Some (DRecord [("name", DString "x")])
  ∧ decode exampleStore Nameable (VObject 1%positive)
    = Some (DRecord [("name", DString "x")])
  ∧ ∃ msg h1 h1',
      messageGenerator DuplicatedVariableName (VObject 10%positive) exampleStore
      = (Ok msg, h1)
      ∧ messageGenerator DuplicatedVariableName (VObject 1%positive) exampleStore
        = (Ok msg, h1')
      ∧ preserved exampleStore h1
      ∧ preserved exampleStore h1'
      ∧ callMessage <$> last (sinkCalls (report DuplicatedVariableName
                                           (VObject 1%positive) (VObject 10%positive)
                                           quietSink (mkWorld exampleStore [])).2)
        = Some msg
      ∧ callMessage <$> last (sinkCalls (report DuplicatedVariableName
                                           (VObject 4%positive) (VObject 1%positive)
                                           failingSink (mkWorld exampleStore [])).2)
        = Some msg.
Proof.
  split; [reflexivity |]. split; [reflexivity |]. split; [reflexivity |].
  apply (rendering_deterministic 0 DuplicatedVariableName exampleStore exampleStore
           [] [] (VObject 1%positive) (VObject 4%positive)
           (VObject 10%positive) (VObject 1%positive) quietSink failingSink
           (DRecord [("name", DString "x")])); reflexivity.
Defined.

Lemma entry_calls_sink_once_witness :
  entries !! 11 = Some IncorrectGlobalReferenceTarget
  ∧ decode exampleStore (paramType IncorrectGlobalReferenceTarget) (VObject 16%positive)
    = Some (DRecord [("expected", DString "TableDefinition");
                     ("received", DString "FunctionDefinition")])
  ∧ ∃ msg h1 l h2,
      messageGenerator IncorrectGlobalReferenceTarget (VObject 16%positive) exampleStore
      = (Ok msg, h1)
      ∧ diagnosticGenerator IncorrectGlobalReferenceTarget (VObject 1%positive) h1
        = (Ok (VObject l), h2)
      ∧ exampleStore !! l = None
      ∧ preserved exampleStore (stamped h2 l "SQL00012")
      ∧ report IncorrectGlobalReferenceTarget (VObject 1%positive) (VObject 16%positive)
          failingSink (mkWorld exampleStore [])
        = let '(result, h3) :=
            failingSink SevError msg (VObject l) (stamped h2 l "SQL00012") in
          (result,
           mkWorld h3 ([] ++ [mkSinkCall SevError msg (VObject l) (stamped h2 l "SQL00012")])).
Proof.
  split; [reflexivity |]. split; [reflexivity |].
  apply (entry_calls_sink_once 11 IncorrectGlobalReferenceTarget exampleStore []
           (VObject 1%positive) (VObject 16%positive) failingSink
           (DRecord [("expected", DString "TableDefinition");
                     ("received", DString "FunctionDefinition")])); reflexivity.
Defined.

Lemma catalog_severity_is_error_witness :
  CannotDeriveTypeOfExpression ∈ entries
  ∧ severityString (severity CannotDeriveTypeOfExpression) = "error"
  ∧ ∃ calls,
      sinkCalls (report CannotDeriveTypeOfExpression VUndefined VNull quietSink
                   (mkWorld exampleStore [])).2 = [] ++ calls
      ∧ Forall (λ c, severityString (callSeverity c) = "error") calls.
Proof.
  assert (CannotDeriveTypeOfExpression ∈ entries) as Hin
    by (apply list_elem_of_lookup; exists 8; reflexivity).
  split; [exact Hin |].
  exact (catalog_severity_is_error CannotDeriveTypeOfExpression VUndefined VNull
           quietSink (mkWorld exampleStore []) Hin).
Defined.


Lemma created_reporter_carries_code_witness :
  let r := SqlErrorFactory.create Nameable "SQL00001" SevError
             (λ _, mret "message") (λ node, mret node) in
  let c := mkSinkCall SevError "message" (VObject 1%positive)
             (stamped exampleStore 1%positive "SQL00001") in
  exampleStore !! 1%positive
  = Some (record {[ "$type" := VString "SourceItem"; "name" := VString "x" ]})
  ∧ canWrite (record {[ "$type" := VString "SourceItem"; "name" := VString "x" ]}) "code"
    = true
  ∧ report r (VObject 1%positive) (VObject 10%positive) failingSink
      (mkWorld exampleStore [])
    = callSink failingSink SevError "message" (VObject 1%positive)
        (mkWorld (stamped exampleStore 1%positive "SQL00001") [])
  ∧ sinkCalls (report r (VObject 1%positive) (VObject 10%positive) failingSink
                 (mkWorld exampleStore [])).2 = [] ++ [c]
  ∧ infoField c "code" = Some (VString "SQL00001").
Proof.
  intros r c. split; [reflexivity |]. split; [reflexivity |].
  exact (proj2 (proj2 (created_reporter_carries_code Nameable "SQL00001" SevError
                         (λ _, mret "message") (λ node, mret node)
                         (VObject 1%positive) (VObject 10%positive) failingSink
                         (mkWorld exampleStore [])))
           "message" exampleStore 1%positive
           (record {[ "$type" := VString "SourceItem"; "name" := VString "x" ]})
           exampleStore eq_refl eq_refl eq_refl eq_refl).
Defined.

(** The thirteen messages on the parameter records of [exampleStore]. *)
Example catalog_messages :
  (λ i, r ← entries !! i; Some (messageGenerator r (exampleParams i) exampleStore).1)
    <$> seq 0 13
  = Some <$>
    [ Ok "Duplicated variable name 'x'.";
      Ok "Value '1.5' is not an integer.";
      Ok "Binary operator '+' is not defined for ('integer', 'text').";
      Ok "Unary operator '-' is not defined for 'text'.";
      Ok "Expression must return a boolean, not a 'integer'.";
      Ok "All-star selection requires table sources (FROM is missing).";
      Ok "Table definition requires at least one column.";
      Ok "Sub queries within select statements must have exactly one column.";
      Ok "Unable to derive the type of the expression.";
      Ok "This operation uses tables with different amounts of columns, which is forbidden. Please add the missing columns.";
      Ok "This operation uses tables with different columns types! Compare the columns at index 2. They are not convertable to each other.";
      Ok "Expected definition of type 'TableDefinition' but received 'FunctionDefinition'.";
      Ok "Unknown data type 'DECIMAL(10, 2)'." ].
Proof. vm_compute. reflexivity. Qed.

(** Numbers at the edge of the type and their textual forms. *)
Example boundary_numbers :
  Forall (λ x, JSNumber.isNumber x = true)
    [ JSNumber.NaN; JSNumber.Infinity; JSNumber.ofZ 0; JSNumber.MAX_SAFE_INTEGER;
      JSNumber.MAX_VALUE ]
  ∧ JSNumber.toString <$>
      [ JSNumber.NaN; JSNumber.Infinity; JSNumber.ofZ 0; JSNumber.MAX_SAFE_INTEGER;
        JSNumber.MAX_VALUE; JSNumber.div (JSNumber.ofZ 1) (JSNumber.ofZ 10);
        JSNumber.ofZ (10 ^ 21); JSNumber.div (JSNumber.ofZ 1) (JSNumber.ofZ (10 ^ 7));
        JSNumber.ofZ (-42) ]
    = [ "NaN"; "Infinity"; "0"; "9007199254740991"; "1.7976931348623157e+308"; "0.1";
        "1e+21"; "1e-7"; "-42" ].
Proof. split; [by repeat constructor | by vm_compute]. Qed.

(** The renderers on such values: the value is shown as it is. *)
Example boundary_renderings :
  let h : heap :=
    list_to_map
      [ (1%positive, record {[ "value" := VNumber JSNumber.NaN ]});
        (2%positive, record {[ "value" := VNumber JSNumber.Infinity ]});
        (3%positive, record {[ "columnIndex" := VNumber (JSNumber.ofZ 0) ]});
        (4%positive, record {[ "columnIndex" := VNumber JSNumber.MAX_SAFE_INTEGER ]});
        (5%positive, record {[ "name" := VString "" ]});
        (6%positive, record {[ "op" := VString ""; "operand" := VObject 7%positive ]});
        (7%positive, record {[ "discriminator" := VString "" ]});
        (8%positive, record {[ "dataType" := VObject 9%positive ]});
        (9%positive, record {[ "dataTypeNames" := VObject 10%positive;
                               "arguments" := VObject 10%positive ]});
        (10%positive, array []) ] in
  (messageGenerator NumericValueIsNotInteger (VObject 1%positive) h).1
  = Ok "Value 'NaN' is not an integer."
  ∧ (messageGenerator NumericValueIsNotInteger (VObject 2%positive) h).1
    = Ok "Value 'Infinity' is not an integer."
  ∧ (messageGenerator TableOperationUsesTablesWithDifferentColumnTypes (VObject 3%positive) h).1
    = Ok "This operation uses tables with different columns types! Compare the columns at index 0. They are not convertable to each other."
  ∧ (messageGenerator TableOperationUsesTablesWithDifferentColumnTypes (VObject 4%positive) h).1
    = Ok "This operation uses tables with different columns types! Compare the columns at index 9007199254740991. They are not convertable to each other."
  ∧ (messageGenerator DuplicatedVariableName (VObject 5%positive) h).1
    = Ok "Duplicated variable name ''."
  ∧ (messageGenerator UnaryOperatorNotDefinedForGivenExpression (VObject 6%positive) h).1
    = Ok "Unary operator '' is not defined for ''."
  ∧ (messageGenerator UnknownDataType (VObject 8%positive) h).1
    = Ok "Unknown data type '()'.".
Proof. by vm_compute. Qed.

(** Outside the declared types a renderer can throw: the typing hypothesis
    of the claims is not idle. *)
Example rendering_outside_the_type :
  (∃ e, (messageGenerator DuplicatedVariableName VUndefined exampleStore).1 = Throw e)
  ∧ (∃ e, (messageGenerator BinaryOperatorNotDefinedForGivenExpressions
             (VObject 13%positive) exampleStore).1 = Throw e)
  ∧ (∃ e, (messageGenerator UnknownDataType (VObject 12%positive) exampleStore).1 = Throw e)
  ∧ sinkCalls (report DuplicatedVariableName (VObject 1%positive) VNull quietSink
                 (mkWorld exampleStore [])).2 = [].
Proof. split_and!; first [eexists; by vm_compute | by vm_compute]. Qed.

(** A sink that throws: the invocation throws the same, after one call. *)
Example failing_sink_propagates :
  (report DuplicatedVariableName (VObject 1%positive) (VObject 10%positive) failingSink
     (mkWorld exampleStore [])).1 = Throw (Thrown (VString "sink failed"))
  ∧ length (sinkCalls (report DuplicatedVariableName (VObject 1%positive)
                         (VObject 10%positive) failingSink
                         (mkWorld exampleStore [])).2) = 1.
Proof. by vm_compute. Qed.

End Examples.

(** * Further properties of the factory and the catalog *)

(** ** The factory on generators of any kind *)

Section FactoryProperties.
Import SqlErrorFactory.

Lemma report_create_Throw P code sev mg dg node props accept (h : heap) log e h' :
  mg props h = (Throw e, h') →
  report (create P code sev mg dg) node props accept (mkWorld h log)
  = (Throw e, mkWorld h' log).
Proof.
  intros Hmg.
  cbv [report create mbind Eff_bind inStore mret Eff_ret callSink store sinkCalls].
  by rewrite Hmg.
Qed.

(** X1. When the renderer throws, or the renderer returns and the location
    resolver throws, the invocation throws the same exception, the sink is
    not called, and the store is as the failing generator left it: after a
    failing renderer the resolver has not run. *)
Theorem generator_failure_propagates P code sev mg dg node props accept
    (h : heap) log e h' :
  mg props h = (Throw e, h')
  ∨ (∃ msg h1, mg props h = (Ok msg, h1) ∧ dg node h1 = (Throw e, h')) →
  report (create P code sev mg dg) node props accept (mkWorld h log)
  = (Throw e, mkWorld h' log).
Proof.
  intros [Hmg | (msg & h1 & Hmg & Hdg)]; [by apply report_create_Throw |].
  cbv [report create mbind Eff_bind inStore mret Eff_ret callSink store sinkCalls].
  by rewrite Hmg, Hdg.
Qed.

(** X2. When the location resolver returns something that is no object,
    stamping it throws a [TypeError]: the sink is not called although the
    message has been rendered. *)
Theorem target_must_be_an_object P code sev mg dg node props accept
    (h : heap) log msg h1 v h2 :
  mg props h = (Ok msg, h1) →
  dg node h1 = (Ok v, h2) →
  ¬ isObject v →
  ∃ what,
    report (create P code sev mg dg) node props accept (mkWorld h log)
    = (Throw (TypeError what), mkWorld h2 log).
Proof.
  intros Hmg Hdg Hv.
  cbv [report create mbind Eff_bind inStore mret Eff_ret callSink store sinkCalls].
  rewrite Hmg, Hdg.
  destruct v; try (eexists; reflexivity). destruct Hv. by eexists.
Qed.


(** With a resolver that builds a record literal, the info object of a sink
    call is that record with the code added, whatever the renderer did. *)
Lemma report_create_literal P code sev mg dg node fs props accept w c :
  dg node = alloc (record fs) →
  sinkCalls (report (create P code sev mg dg) node props accept w).2
  = sinkCalls w ++ [c] →
  ∃ l, callInfo c = VObject l
       ∧ callSeverity c = sev
       ∧ callHeap c !! l = Some (record (<["code" := VString code]> fs)).
Proof.
  intros Hdg. destruct w as [h log].
  cbv [report create mbind Eff_bind inStore mret Eff_ret callSink store sinkCalls snd].
  destruct (mg props h) as [[msg|e] h1];
    [| intros E; apply (f_equal length) in E; rewrite length_app in E; cbn in E; lia].
  rewrite Hdg. cbn [alloc setProp].
  rewrite lookup_insert_eq. cbn [default]. unfold id. rewrite canWrite_record.
  rewrite insert_insert_eq. cbn [fields elems extensible readonly record].
  destruct (accept sev msg _ _) as [res hf].
  intros E. apply app_inv_head in E. injection E as <-.
  eexists. cbn [callInfo callSeverity callHeap]. split_and!; [done.. |].
  by rewrite lookup_insert_eq.
Qed.

End FactoryProperties.

(** ** The catalog on records of any kind *)

Lemma length_append (a b : string) :
  String.length (a +:+ b) = String.length a + String.length b.
Proof. induction a as [|x a IH]; [done |]. rewrite append_cons. cbn. by rewrite IH. Qed.

Lemma append_inj_r (a b c : string) : a +:+ c = b +:+ c → a = b.
Proof.
  revert b. induction a as [|x a IH]; intros [|y b] E.
  - done.
  - apply (f_equal String.length) in E. rewrite !length_append in E. cbn in E. lia.
  - apply (f_equal String.length) in E. rewrite !length_append in E. cbn in E. lia.
  - rewrite !append_cons in E. injection E as -> E. f_equal. by apply IH.
Qed.

Lemma append_cancel (pre a b post : string) :
  pre +:+ a +:+ post = pre +:+ b +:+ post → a = b.
Proof. intros E. apply (inj (String.append pre)) in E. by apply append_inj_r in E. Qed.

Lemma bind_Throw {S A B} (m : Eff S A) (f : A → Eff S B) s e s' :
  m s = (Throw e, s') → (m ≫= f) s = (Throw e, s').
Proof. intros E. unfold mbind, Eff_bind. by rewrite E. Qed.

Lemma getProp_readProp (h : heap) v f :
  ¬ isNullish v → getProp v f h = (Ok (readProp h v f), h).
Proof.
  intros Hv. destruct v; try reflexivity; destruct Hv; [by left | by right].
Qed.

Ltac entry_cases Hi :=
  unfold ReportAs.entries in Hi;
  repeat (match type of Hi with
          | (_ :: _) !! ?i = Some _ =>
              destruct i; [apply (inj Some) in Hi; subst |]; cbn [lookup list_lookup] in Hi
          end);
  [.. | discriminate Hi].

Ltac open_entry :=
  cbv [messageGenerator diagnosticGenerator paramType severity Code SqlErrorFactory.create
       ReportAs.DuplicatedVariableName ReportAs.NumericValueIsNotInteger
       ReportAs.BinaryOperatorNotDefinedForGivenExpressions
       ReportAs.UnaryOperatorNotDefinedForGivenExpression ReportAs.ExpressionMustReturnABoolean
       ReportAs.AllStarSelectionRequiresTableSources ReportAs.TableDefinitionRequiresAtLeastOneColumn
       ReportAs.SubQueriesWithinSelectStatementsMustHaveExactlyOneColumn
       ReportAs.CannotDeriveTypeOfExpression ReportAs.TableOperationUsesTablesWithDifferentColumnCounts
       ReportAs.TableOperationUsesTablesWithDifferentColumnTypes ReportAs.IncorrectGlobalReferenceTarget
       ReportAs.UnknownDataType].

Section CatalogProperties.
Context `{Host}.
Import SqlErrorFactory ReportAs.


(** The conversion of a value that is no object returns or throws a
    [TypeError], and leaves the store alone. *)
Lemma ToString_primitive (h : heap) v :
  ¬ isObject v →
  ToString v h = (Ok (textOf v), h) ∨ ∃ what, ToString v h = (Throw (TypeError what), h).
Proof.
  intros Hv. destruct v; try (by left); [right; by eexists | destruct Hv; by eexists].
Qed.

Lemma run_getProp_readProp {B} (h : heap) v f (k : value → JS B) :
  ¬ isNullish v → (getProp v f ≫= k) h = k (readProp h v f) h.
Proof. intros Hv. by apply bind_Ok, getProp_readProp. Qed.



(** X5. An entry declared with any other parameter type throws a
    [TypeError] when its parameter record is [undefined] or [null]: nothing
    is reported and the store is untouched. *)
Theorem nullish_props_throw i r (h : heap) log node props accept :
  entries !! i = Some r →
  paramType r ≠ TRecord [] →
  isNullish props →
  ∃ what,
    report r node props accept (mkWorld h log) = (Throw (TypeError what), mkWorld h log).
Proof.
  intros Hi HP Hprops. entry_cases Hi; try (by destruct HP);
    destruct Hprops as [-> | ->]; eexists; reflexivity.
Qed.


(** X7. [BinaryOperatorNotDefinedForGivenExpressions] needs both operand
    types: when [left] is [undefined] or [null], or [left] has a
    discriminator and [right] is [undefined] or [null], reading the
    discriminator throws a [TypeError]; nothing is reported and the store is
    untouched. *)
Theorem missing_operand_type_throws (h : heap) log node props accept :
  ¬ isNullish props →
  ¬ isObject (readProp h props "op") →
  isNullish (readProp h props "left")
  ∨ (¬ isNullish (readProp h props "left")
     ∧ ¬ isObject (readProp h (readProp h props "left") "discriminator")
     ∧ isNullish (readProp h props "right")) →
  ∃ what,
    report BinaryOperatorNotDefinedForGivenExpressions node props accept (mkWorld h log)
    = (Throw (TypeError what), mkWorld h log).
Proof.
  intros Hprops Hop Hoperands.
  assert (∃ what, messageGenerator BinaryOperatorNotDefinedForGivenExpressions props h
                  = (Throw (TypeError what), h)) as (what & Hmg).
  { open_entry.
    rewrite !run_getProp_readProp by assumption.
    destruct (ToString_primitive h _ Hop) as [Hs | (what & Hs)];
      [| exists what; by apply bind_Throw].
    rewrite (bind_Ok _ _ _ _ _ Hs).
    destruct Hoperands as [Hleft | (Hleft & Hd & Hright)].
    - destruct Hleft as [-> | ->]; by eexists.
    - rewrite run_getProp_readProp by assumption.
      destruct (ToString_primitive h _ Hd) as [Hs' | (what & Hs')];
        [| exists what; by apply bind_Throw].
      rewrite (bind_Ok _ _ _ _ _ Hs').
      destruct Hright as [-> | ->]; by eexists. }
  exists what. unfold BinaryOperatorNotDefinedForGivenExpressions.
  by apply report_create_Throw.
Qed.

(** X8. The message of [UnknownDataType] on a data type node: the name parts
    separated by single spaces, then the argument values separated by a
    comma and a space between parentheses, which are there also when the
    node has no arguments.  Rendering leaves one new array in the store,
    that of the argument values. *)
Theorem unknown_data_type_rendering (h : heap) props d :
  decode h (paramType UnknownDataType) props = Some d →
  ∃ names args values,
    d = DRecord [("dataType",
                  DRecord [("dataTypeNames", DArray names); ("arguments", DArray args)])]
    ∧ messageGenerator UnknownDataType props h
      = (Ok ("Unknown data type '" +:+ String.concat " " (texts (DArray names))
             +:+ "(" +:+ String.concat ", " (texts (DArray args)) +:+ ")'."),
         <[fresh (dom h) := array values]> h)
    ∧ textOf <$> values = texts (DArray args).
Proof.
  intros Hd. cbn [paramType create UnknownDataType] in Hd.
  invert_decode.
  match goal with Hs : mapM (decode _ TString) _ = Some ?ds |- _ =>
    pose proof (decode_strings _ _ _ Hs) as Hnames end.
  match goal with Hs : mapM (decode _ NumberLiteral) _ = Some ?ds |- _ =>
    destruct (decode_literals h _ _ Hs) as (xs & Hrun & Hn) end.
  subst.
  eexists _, _, (VNumber <$> xs). split; [reflexivity |].
  open_entry.
  erewrite !run_getProp by eassumption.
  erewrite run_Array_join; [| eassumption.. | apply joinElems_strings].
  erewrite !run_getProp by eassumption.
  erewrite run_Array_map; [| eassumption..].
  erewrite run_Array_join;
    [| apply lookup_insert_eq | reflexivity | apply joinElems_numbers].
  cbn [texts]. rewrite Hn. split; [reflexivity |].
  by rewrite <- list_fmap_compose.
Qed.

(** X9. For an entry whose declared record has a single string or number
    field, the message tells the value: two records of the declared type
    whose messages are equal have the same textual value. *)
Theorem message_determines_single_value i r f t (h h' : heap) props props' d d' :
  entries !! i = Some r →
  paramType r = TRecord [(f, t)] →
  t = TString ∨ t = TNumber →
  decode h (paramType r) props = Some d →
  decode h' (paramType r) props' = Some d' →
  (messageGenerator r props h).1 = (messageGenerator r props' h').1 →
  texts d = texts d'.
Proof.
  intros Hi HP Ht Hd Hd'.
  entry_cases Hi; cbn [paramType create
        DuplicatedVariableName NumericValueIsNotInteger
        BinaryOperatorNotDefinedForGivenExpressions
        UnaryOperatorNotDefinedForGivenExpression ExpressionMustReturnABoolean
        AllStarSelectionRequiresTableSources TableDefinitionRequiresAtLeastOneColumn
        SubQueriesWithinSelectStatementsMustHaveExactlyOneColumn
        CannotDeriveTypeOfExpression TableOperationUsesTablesWithDifferentColumnCounts
        TableOperationUsesTablesWithDifferentColumnTypes IncorrectGlobalReferenceTarget
        UnknownDataType] in *;
    unfold Nameable, NumericValue, BinaryOperatorMismatch, UnaryOperatorMismatch,
      TypeDescriptor in HP;
    try discriminate HP;
    try solve [injection HP as <- <-; destruct Ht; discriminate];
    invert_decode; open_entry;
    repeat first [ erewrite run_getProp by eassumption
                 | rewrite run_ToString_string
                 | rewrite run_ToString_number ];
    unfold mret, Eff_ret; cbn [fst]; intros E; injection E as E;
    apply append_cancel in E; cbn; by rewrite E.
Qed.


(** X11. Whenever an invocation of an entry calls the sink, on whatever
    arguments, the info object has the properties [node], [code] and, for
    the entries that highlight one, [property], and no other: no index, no
    range, no keyword. *)
Theorem info_has_no_other_property i r node props accept w c :
  entries !! i = Some r →
  sinkCalls (report r node props accept w).2 = sinkCalls w ++ [c] →
  ∃ l p,
    callInfo c = VObject l
    ∧ spec_highlighted !! i = Some p
    ∧ callHeap c !! l = Some (diagnosticInfo node p (Code r))
    ∧ ∀ f, f ≠ "node" → f ≠ "property" → f ≠ "code" → infoField c f = None.
Proof.
  intros Hi Hcall.
  destruct (entries_diagnosticGenerator i r Hi) as (p & Hp & Hdg).
  rewrite (entries_created i r Hi) in Hcall.
  destruct (report_create_literal _ _ _ _ _ _ _ _ _ _ _ (Hdg node) Hcall)
    as (l & Hinfo & _ & Hl).
  exists l, p. split_and!; [done.. |].
  intros f Hn Hp' Hc. unfold infoField. rewrite Hinfo, Hl. cbn.
  rewrite lookup_insert_ne by done.
  destruct p; cbn; by simplify_map_eq.
Qed.

End CatalogProperties.

(** X12. On a parameter record of the declared type an entry never converts
    an object to a string: the invocation is the same under any two hosts,
    whatever their objects' own conversions do. *)
Theorem typed_report_ignores_object_conversion (H1 H2 : Host) i r1 r2
    (h : heap) log node props accept d :
  @ReportAs.entries H1 !! i = Some r1 →
  @ReportAs.entries H2 !! i = Some r2 →
  decode h (paramType r1) props = Some d →
  report r1 node props accept (mkWorld h log)
  = report r2 node props accept (mkWorld h log).
Proof.
  intros Hi1 Hi2 Hd.
  destruct (@entries_report H1 i r1 h log node props accept d Hi1 Hd)
    as (msg & h1 & p & Hmg1 & Hp & _ & _ & _ & ->).
  assert (decode h (paramType r2) props = Some d ∧ Code r2 = Code r1
          ∧ messageGenerator r2 props h = (Ok msg, h1)) as (Hd2 & Hcode & Hmg2).
  { clear Hp. revert Hmg1 Hd Hi2. entry_cases Hi1;
      intros Hmg1 Hd Hi2; apply (inj Some) in Hi2; subst;
      (split; [exact Hd |]); (split; [reflexivity |]);
      rewrite <- Hmg1; clear Hmg1;
      cbn [paramType SqlErrorFactory.create
        ReportAs.DuplicatedVariableName ReportAs.NumericValueIsNotInteger
        ReportAs.BinaryOperatorNotDefinedForGivenExpressions
        ReportAs.UnaryOperatorNotDefinedForGivenExpression
        ReportAs.ExpressionMustReturnABoolean
        ReportAs.AllStarSelectionRequiresTableSources
        ReportAs.TableDefinitionRequiresAtLeastOneColumn
        ReportAs.SubQueriesWithinSelectStatementsMustHaveExactlyOneColumn
        ReportAs.CannotDeriveTypeOfExpression
        ReportAs.TableOperationUsesTablesWithDifferentColumnCounts
        ReportAs.TableOperationUsesTablesWithDifferentColumnTypes
        ReportAs.IncorrectGlobalReferenceTarget ReportAs.UnknownDataType] in Hd;
      invert_decode;
      cbv [messageGenerator SqlErrorFactory.create
        ReportAs.DuplicatedVariableName ReportAs.NumericValueIsNotInteger
        ReportAs.BinaryOperatorNotDefinedForGivenExpressions
        ReportAs.UnaryOperatorNotDefinedForGivenExpression
        ReportAs.ExpressionMustReturnABoolean
        ReportAs.AllStarSelectionRequiresTableSources
        ReportAs.TableDefinitionRequiresAtLeastOneColumn
        ReportAs.SubQueriesWithinSelectStatementsMustHaveExactlyOneColumn
        ReportAs.CannotDeriveTypeOfExpression
        ReportAs.TableOperationUsesTablesWithDifferentColumnCounts
        ReportAs.TableOperationUsesTablesWithDifferentColumnTypes
        ReportAs.IncorrectGlobalReferenceTarget ReportAs.UnknownDataType];
      repeat first [ erewrite run_getProp by eassumption
                   | rewrite run_ToString_string
                   | rewrite run_ToString_number ];
      try reflexivity.
    match goal with Hs : mapM (decode _ TString) _ = Some _ |- _ =>
      apply decode_strings in Hs; subst end.
    match goal with Hs : mapM (decode _ NumberLiteral) _ = Some _ |- _ =>
      apply (decode_literals h) in Hs as (xs & Hrun & _) end.
    do 2 (erewrite run_Array_join; [| eassumption.. | apply joinElems_strings]).
    repeat erewrite run_getProp by eassumption.
    do 2 (erewrite run_Array_map; [| eassumption..]).
    do 2 (erewrite run_Array_join;
            [| apply lookup_insert_eq | reflexivity | apply joinElems_numbers]).
    reflexivity. }
  destruct (@entries_report H2 i r2 h log node props accept d Hi2 Hd2)
    as (msg' & h1' & p' & Hmg2' & Hp' & _ & _ & _ & ->).
  rewrite Hmg2 in Hmg2'. injection Hmg2' as <- <-.
  rewrite Hp in Hp'. injection Hp' as <-. by rewrite Hcode.
Qed.

(** ** The further properties on [exampleStore] *)

Section FurtherExamples.
#[local] Existing Instance plainObjects.
Import SqlErrorFactory ReportAs.

Lemma generator_failure_propagates_witness :
  report (create Nameable "SQL00001" SevError
            (λ _, throw (Thrown (VString "no message")))
            (λ node, alloc (record {[ "node" := node ]})))
    (VObject 1%positive) (VObject 10%positive) quietSink (mkWorld exampleStore [])
  = (Throw (Thrown (VString "no message")), mkWorld exampleStore []).
Proof.
  apply (generator_failure_propagates Nameable "SQL00001" SevError
           (λ _, throw (Thrown (VString "no message")))
           (λ node, alloc (record {[ "node" := node ]}))
           (VObject 1%positive) (VObject 10%positive) quietSink exampleStore []
           (Thrown (VString "no message")) exampleStore).
  left. reflexivity.
Defined.

Lemma target_must_be_an_object_witness :
  ∃ what,
    report (create Nameable "SQL00001" SevError (λ _, mret "message") (λ _, mret VUndefined))
      (VObject 1%positive) (VObject 10%positive) quietSink (mkWorld exampleStore [])
    = (Throw (TypeError what), mkWorld exampleStore []).
Proof.
  apply (target_must_be_an_object Nameable "SQL00001" SevError
           (λ _, mret "message") (λ _, mret VUndefined)
           (VObject 1%positive) (VObject 10%positive) quietSink exampleStore []
           "message" exampleStore VUndefined exampleStore);
    [reflexivity | reflexivity | intros [l E]; discriminate E].
Defined.


(** The same resolver on a frozen object: a [TypeError], and no call. *)
Example stamping_a_frozen_target_throws :
  let h : heap := <[20%positive := frozenRecord {[ "node" := VObject 1%positive ]}]> exampleStore in
  ∃ what,
    report (create Nameable "SQL00001" SevError (λ _, mret "message")
              (λ _, mret (VObject 20%positive)))
      (VObject 1%positive) (VObject 10%positive) quietSink (mkWorld h [])
    = (Throw (TypeError what), mkWorld h []).
Proof.
  intros h. eexists. by vm_compute.
Qed.


Lemma nullish_props_throw_witness :
  entries !! 0 = Some DuplicatedVariableName
  ∧ ∃ what,
      report DuplicatedVariableName (VObject 1%positive) VUndefined quietSink
        (mkWorld exampleStore [])
      = (Throw (TypeError what), mkWorld exampleStore []).
Proof.
  split; [reflexivity |].
  apply (nullish_props_throw 0 DuplicatedVariableName exampleStore []
           (VObject 1%positive) VUndefined quietSink);
    [reflexivity | discriminate | by left].
Defined.


Lemma missing_operand_type_throws_witness :
  readProp exampleStore (VObject 13%positive) "op" = VString "-"
  ∧ readProp exampleStore (VObject 13%positive) "left" = VUndefined
  ∧ ∃ what,
      report BinaryOperatorNotDefinedForGivenExpressions (VObject 1%positive)
        (VObject 13%positive) quietSink (mkWorld exampleStore [])
      = (Throw (TypeError what), mkWorld exampleStore []).
Proof.
  split; [reflexivity |]. split; [reflexivity |].
  apply (missing_operand_type_throws exampleStore [] (VObject 1%positive)
           (VObject 13%positive) quietSink);
    [intros [E | E]; discriminate E | intros [l E]; discriminate E | left; by left].
Defined.

Lemma unknown_data_type_rendering_witness :
  ∃ names args values,
    DRecord [("dataType",
              DRecord [("dataTypeNames", DArray [DString "DECIMAL"]);
                       ("arguments",
                        DArray [DRecord [("value", DNumber (JSNumber.ofZ 10))];
                                DRecord [("value", DNumber (JSNumber.ofZ 2))]])])]
    = DRecord [("dataType",
                DRecord [("dataTypeNames", DArray names); ("arguments", DArray args)])]
    ∧ messageGenerator UnknownDataType (VObject 17%positive) exampleStore
      = (Ok ("Unknown data type '" +:+ String.concat " " (texts (DArray names))
             +:+ "(" +:+ String.concat ", " (texts (DArray args)) +:+ ")'."),
         <[fresh (dom exampleStore) := array values]> exampleStore)
    ∧ textOf <$> values = texts (DArray args).
Proof.
  apply (unknown_data_type_rendering exampleStore (VObject 17%positive)).
  vm_compute. reflexivity.
Defined.

Lemma message_determines_single_value_witness :
  entries !! 0 = Some DuplicatedVariableName
  ∧ (messageGenerator DuplicatedVariableName (VObject 10%positive) exampleStore).1
    = (messageGenerator DuplicatedVariableName (VObject 1%positive) exampleStore).1
  ∧ texts (DRecord [("name", DString "x")]) = texts (DRecord [("name", DString "x")]).
Proof.
  split; [reflexivity |]. split; [reflexivity |].
  apply (message_determines_single_value 0 DuplicatedVariableName "name" TString
           exampleStore exampleStore (VObject 10%positive) (VObject 1%positive));
    [reflexivity | reflexivity | by left | reflexivity | reflexivity | reflexivity].
Defined.


Lemma info_has_no_other_property_witness :
  sinkCalls (report DuplicatedVariableName (VObject 1%positive) (VObject 10%positive)
               quietSink (mkWorld exampleStore [])).2 = [] ++ [exampleCall]
  ∧ ∃ l p,
      callInfo exampleCall = VObject l
      ∧ spec_highlighted !! 0 = Some p
      ∧ callHeap exampleCall !! l
        = Some (diagnosticInfo (VObject 1%positive) p (Code DuplicatedVariableName))
      ∧ ∀ f, f ≠ "node" → f ≠ "property" → f ≠ "code" → infoField exampleCall f = None.
Proof.
  split; [vm_compute; reflexivity |].
  apply (info_has_no_other_property 0 DuplicatedVariableName
           (VObject 1%positive) (VObject 10%positive) quietSink (mkWorld exampleStore [])
           exampleCall);
    [reflexivity | vm_compute; reflexivity].
Defined.

Lemma typed_report_ignores_object_conversion_witness :
  @entries plainObjects !! 2 = Some (@BinaryOperatorNotDefinedForGivenExpressions plainObjects)
  ∧ @entries throwingObjects !! 2
    = Some (@BinaryOperatorNotDefinedForGivenExpressions throwingObjects)
  ∧ report (@BinaryOperatorNotDefinedForGivenExpressions plainObjects)
      (VObject 1%positive) (VObject 12%positive) quietSink (mkWorld exampleStore [])
    = report (@BinaryOperatorNotDefinedForGivenExpressions throwingObjects)
        (VObject 1%positive) (VObject 12%positive) quietSink (mkWorld exampleStore []).
Proof.
  split; [reflexivity |]. split; [reflexivity |].
  apply (typed_report_ignores_object_conversion plainObjects throwingObjects 2
           (@BinaryOperatorNotDefinedForGivenExpressions plainObjects)
           (@BinaryOperatorNotDefinedForGivenExpressions throwingObjects)
           exampleStore [] (VObject 1%positive) (VObject 12%positive) quietSink
           (DRecord [("op", DString "+");
                     ("left", DRecord [("discriminator", DString "integer")]);
                     ("right", DRecord [("discriminator", DString "text")])]));
    reflexivity.
Defined.

(** A symbol where a name is expected: the template literal refuses it. *)
Example symbol_field_throws :
  let h : heap := <[20%positive := record {[ "name" := VSymbol "s" ]}]> exampleStore in
  ∃ what,
    report DuplicatedVariableName (VObject 1%positive) (VObject 20%positive) quietSink
      (mkWorld h [])
    = (Throw (TypeError what), mkWorld h []).
Proof. intros h. eexists. by vm_compute. Qed.

End FurtherExamples.
